(** * alloc-wg: the rustdoc implementor tables and their hand-off

    The repository ships two generated scripts,
    [implementors/core/marker/trait.Send.js] and a second file of the same
    shape whose records describe [core::ops::drop::Drop].  Each one is an
    immediately invoked function that

    - builds an object [implementors] with one property, ["alloc_wg"],
      holding an array of records [{text, synthetic, types}];
    - hands the object to [window.register_implementors] when that global is
      truthy, and stores it in [window.pending_implementors] otherwise.

    The development embeds the scripts in a small state, trace and exception
    monad over the browser's global object and proves the properties of the
    hand-off and of the two tables. *)

From Stdlib Require Import String Ascii List ZArith Bool Lia.
From stdpp Require Import base gmap strings list.
Import ListNotations.

Local Open Scope string_scope.
#[local] Set Warnings "-register-all".

(** ** JavaScript values *)

(** The values the scripts build and the values a page can have left in the
    two globals.  Arrays and objects are kept structurally; an object is the
    list of its own properties in insertion order, which is the order
    JavaScript enumerates string keys in.  Numbers are the integral ones plus
    [NaN]: that is all [ToBoolean] distinguishes.  A function is named by an
    identifier that the host resolves when it is called.

    The scripts create their table, fill it, and hand it over in their last
    statement; they hold no second reference to it and never read or write
    it afterwards, so the table is modelled as the value it has at the
    hand-off rather than as a location in a heap. *)
Inductive value : Type :=
| JsUndefined
| JsNull
| JsBool (b : bool)
| JsNumber (n : Z)
| JsNaN
| JsString (s : string)
| JsArray (elems : list value)
| JsObject (props : list (string * value))
| JsFunction (f : nat).

(** [if (v)] : the abstract operation ToBoolean. *)
Definition ToBoolean (v : value) : bool :=
  match v with
  | JsUndefined => false
  | JsNull => false
  | JsBool b => b
  | JsNumber n => negb (n =? 0)%Z
  | JsNaN => false
  | JsString EmptyString => false
  | JsString (String _ _) => true
  | JsArray _ => true
  | JsObject _ => true
  | JsFunction _ => true
  end.

(** ** Own properties of an object *)

Fixpoint lookup_prop (props : list (string * value)) (k : string) : option value :=
  match props with
  | [] => None
  | (k', v) :: rest => if String.eqb k k' then Some v else lookup_prop rest k
  end.

(** [o[k] = v] on the property list: an existing key keeps its position, a
    new key is appended.  This is JavaScript's behaviour for ordinary string
    keys such as the scripts' ["alloc_wg"]; keys that are array indices
    (which JavaScript enumerates first) and the key [__proto__] (a setter
    that creates no own property) are outside the model. *)
Fixpoint assign_prop (props : list (string * value)) (k : string) (v : value)
  : list (string * value) :=
  match props with
  | [] => [(k, v)]
  | (k', v') :: rest =>
      if String.eqb k k' then (k', v) :: rest else (k', v') :: assign_prop rest k v
  end.

(** [o.k] and [o[k]]: a missing property and a non-object read [undefined]. *)
Definition get_member (o : value) (k : string) : value :=
  match o with
  | JsObject props => default JsUndefined (lookup_prop props k)
  | _ => JsUndefined
  end.

(** [o[k] = v] for the object the script has just created. *)
Definition set_member (o : value) (k : string) (v : value) : value :=
  match o with
  | JsObject props => JsObject (assign_prop props k v)
  | _ => o
  end.

Definition keys (o : value) : list string :=
  match o with
  | JsObject props => map fst props
  | _ => []
  end.

(** The elements of an array value. *)
Definition elements (a : value) : list value :=
  match a with
  | JsArray l => l
  | _ => []
  end.

(** All records of a table, key after key. *)
Definition records (table : value) : list value :=
  match table with
  | JsObject props => flat_map (fun kv => elements (snd kv)) props
  | _ => []
  end.

(** ** The host: the global object, and what the script does to it *)

(** What a script does to its host: reading a global, writing a global,
    calling a function with an argument list. *)
Inductive event : Type :=
| EvGet (k : string)
| EvSet (k : string) (v : value)
| EvCall (f : nat) (args : list value).

(** An exception leaving the script: the [TypeError] that the script's own
    call expression raises on a callee that is not callable, or a value
    thrown inside the callee. *)
Inductive exn : Type :=
| TypeError (msg : string)
| CalleeThrew (v : value).

Inductive completion (A : Type) : Type :=
| Normal (a : A)
| Throw (e : exn).
Arguments Normal {A} a.
Arguments Throw {A} e.

(** How a called function ended. *)
Inductive outcome : Type :=
| Returned (v : value)
| Threw (v : value).

Record host : Type := mkHost {
  window : gmap string value;
  trace : list event
}.

(** Script code: it runs in a host, changes it, and ends normally or with
    an exception, which skips the rest of the script. *)
Definition M (A : Type) : Type := host -> completion A * host.

Definition ret {A} (a : A) : M A := fun h => (Normal a, h).

Definition bind {A B} (k : A -> M B) (m : M A) : M B :=
  fun h =>
    match m h with
    | (Normal a, h') => k a h'
    | (Throw e, h') => (Throw e, h')
    end.

#[global] Instance M_ret : MRet M := @ret.
#[global] Instance M_bind : MBind M := @bind.

Definition emit (e : event) (h : host) : host :=
  mkHost (window h) (trace h ++ [e])%list.

(** The value of [window.k] in a page: a missing property reads
    [undefined]. *)
Definition global (w : gmap string value) (k : string) : value :=
  default JsUndefined (w !! k).

(** [window.k] as an expression. *)
Definition get_global (k : string) : M value :=
  fun h => (Normal (global (window h) k), emit (EvGet k) h).

(** [window.k = v]. *)
Definition set_global (k : string) (v : value) : M unit :=
  fun h => (Normal tt, mkHost (<[k := v]> (window h)) (trace h ++ [EvSet k v])%list).

Definition register_implementors : string := "register_implementors".
Definition pending_implementors : string := "pending_implementors".

(** Lines 1 and 2: [var implementors = {}; implementors[crate] = impls;]. *)
Definition build (crate : string) (impls : value) : value :=
  let implementors := JsObject [] in
  let implementors := set_member implementors crate impls in
  implementors.

Section HandOff.

(** The functions of the page: what calling function [f] on an argument
    list does to the global object, and how the call ends.  The callee is
    code of the page, not of the scripts, and is left arbitrary. *)
Variable host_call : nat -> list value -> gmap string value -> outcome * gmap string value.

(** [callee(args)], the callee named [name] in the source text. *)
Definition call (name : string) (callee : value) (args : list value) : M value :=
  fun h =>
    match callee with
    | JsFunction f =>
        let '(o, w') := host_call f args (window h) in
        let h' := mkHost w' (trace h ++ [EvCall f args])%list in
        match o with
        | Returned v => (Normal v, h')
        | Threw v => (Throw (CalleeThrew v), h')
        end
    | _ => (Throw (TypeError (name +:+ " is not a function")), h)
    end.

(** Lines 4 to 8 of both scripts. *)
Definition hand_off (implementors : value) : M unit :=
  c ← get_global register_implementors;
  if ToBoolean c then
    f ← get_global register_implementors;
    call "window.register_implementors" f [implementors];;
    mret tt
  else
    set_global pending_implementors implementors.

(** The whole script: the table is built, then handed off. *)
Definition script (crate : string) (impls : value) : M unit :=
  hand_off (build crate impls).

(** One load of a script in a page whose global object is [w]. *)
Definition load (crate : string) (impls : value) (w : gmap string value)
  : completion unit * host :=
  script crate impls (mkHost w []).

End HandOff.

(** ** The two tables *)

(** The double quote, which the scripts' string literals write with a
    backslash before it. *)
Definition dquote : string := String "034"%char EmptyString.

(** A string literal of the scripts, given as the pieces between its escaped
    double quotes. *)
Definition literal (pieces : list string) : string := String.concat dquote pieces.

Module Send.

(** [implementors/core/marker/trait.Send.js], line 2: the implementors of
    [core::marker::Send] in the crate, as the array literal lists them (the
    comma before the closing bracket adds no element). *)
Definition alloc_wg : value :=
  JsArray [
    JsObject [
      ("text", JsString (literal [
        "impl <a class="; "trait"; " href=";
        "https://doc.rust-lang.org/nightly/core/marker/trait.Send.html"; " title=";
        "trait core::marker::Send"; ">Send</a> for <a class="; "struct"; " href=";
        "alloc_wg/alloc/struct.LayoutErr.html"; " title="; "struct alloc_wg::alloc::LayoutErr";
        ">LayoutErr</a>"
      ]));
      ("synthetic", JsBool true);
      ("types", JsArray [JsString "alloc_wg::alloc::layout::LayoutErr"])
    ];
    JsObject [
      ("text", JsString (literal [
        "impl <a class="; "trait"; " href=";
        "https://doc.rust-lang.org/nightly/core/marker/trait.Send.html"; " title=";
        "trait core::marker::Send"; ">Send</a> for <a class="; "struct"; " href=";
        "alloc_wg/alloc/struct.NonZeroLayout.html"; " title=";
        "struct alloc_wg::alloc::NonZeroLayout"; ">NonZeroLayout</a>"
      ]));
      ("synthetic", JsBool true);
      ("types", JsArray [JsString "alloc_wg::alloc::layout::NonZeroLayout"])
    ];
    JsObject [
      ("text", JsString (literal [
        "impl <a class="; "trait"; " href=";
        "https://doc.rust-lang.org/nightly/core/marker/trait.Send.html"; " title=";
        "trait core::marker::Send"; ">Send</a> for <a class="; "struct"; " href=";
        "alloc_wg/alloc/struct.CapacityOverflow.html"; " title=";
        "struct alloc_wg::alloc::CapacityOverflow"; ">CapacityOverflow</a>"
      ]));
      ("synthetic", JsBool true);
      ("types", JsArray [JsString "alloc_wg::alloc::CapacityOverflow"])
    ];
    JsObject [
      ("text", JsString (literal [
        "impl <a class="; "trait"; " href=";
        "https://doc.rust-lang.org/nightly/core/marker/trait.Send.html"; " title=";
        "trait core::marker::Send"; ">Send</a> for <a class="; "struct"; " href=";
        "alloc_wg/alloc/struct.AllocErr.html"; " title="; "struct alloc_wg::alloc::AllocErr";
        ">AllocErr</a>"
      ]));
      ("synthetic", JsBool true);
      ("types", JsArray [JsString "alloc_wg::alloc::AllocErr"])
    ];
    JsObject [
      ("text", JsString (literal [
        "impl <a class="; "trait"; " href=";
        "https://doc.rust-lang.org/nightly/core/marker/trait.Send.html"; " title=";
        "trait core::marker::Send"; ">Send</a> for <a class="; "struct"; " href=";
        "alloc_wg/alloc/struct.Global.html"; " title="; "struct alloc_wg::alloc::Global";
        ">Global</a>"
      ]));
      ("synthetic", JsBool true);
      ("types", JsArray [JsString "alloc_wg::alloc::Global"])
    ];
    JsObject [
      ("text", JsString (literal [
        "impl&lt;A&gt; <a class="; "trait"; " href=";
        "https://doc.rust-lang.org/nightly/core/marker/trait.Send.html"; " title=";
        "trait core::marker::Send"; ">Send</a> for <a class="; "enum"; " href=";
        "alloc_wg/collections/enum.CollectionAllocErr.html"; " title=";
        "enum alloc_wg::collections::CollectionAllocErr";
        ">CollectionAllocErr</a>&lt;A&gt; <span class="; "where fmt-newline";
        ">where<br>&nbsp;&nbsp;&nbsp;&nbsp;&lt;A as <a class="; "trait"; " href=";
        "alloc_wg/alloc/trait.AllocRef.html"; " title="; "trait alloc_wg::alloc::AllocRef";
        ">AllocRef</a>&gt;::<a class="; "type"; " href=";
        "alloc_wg/alloc/trait.AllocRef.html#associatedtype.Error"; " title=";
        "type alloc_wg::alloc::AllocRef::Error"; ">Error</a>: <a class="; "trait"; " href=";
        "https://doc.rust-lang.org/nightly/core/marker/trait.Send.html"; " title=";
        "trait core::marker::Send"; ">Send</a>,&nbsp;</span>"
      ]));
      ("synthetic", JsBool true);
      ("types", JsArray [JsString "alloc_wg::collections::CollectionAllocErr"])
    ];
    JsObject [
      ("text", JsString (literal [
        "impl&lt;T, A&gt; <a class="; "trait"; " href=";
        "https://doc.rust-lang.org/nightly/core/marker/trait.Send.html"; " title=";
        "trait core::marker::Send"; ">Send</a> for <a class="; "struct"; " href=";
        "alloc_wg/raw_vec/struct.RawVec.html"; " title="; "struct alloc_wg::raw_vec::RawVec";
        ">RawVec</a>&lt;T, A&gt; <span class="; "where fmt-newline";
        ">where<br>&nbsp;&nbsp;&nbsp;&nbsp;T: <a class="; "trait"; " href=";
        "https://doc.rust-lang.org/nightly/core/marker/trait.Send.html"; " title=";
        "trait core::marker::Send"; ">Send</a>,<br>&nbsp;&nbsp;&nbsp;&nbsp;&lt;A as <a class=";
        "trait"; " href="; "alloc_wg/alloc/trait.DeallocRef.html"; " title=";
        "trait alloc_wg::alloc::DeallocRef"; ">DeallocRef</a>&gt;::<a class="; "type"; " href=";
        "alloc_wg/alloc/trait.DeallocRef.html#associatedtype.BuildAlloc"; " title=";
        "type alloc_wg::alloc::DeallocRef::BuildAlloc"; ">BuildAlloc</a>: <a class="; "trait";
        " href="; "https://doc.rust-lang.org/nightly/core/marker/trait.Send.html"; " title=";
        "trait core::marker::Send"; ">Send</a>,&nbsp;</span>"
      ]));
      ("synthetic", JsBool true);
      ("types", JsArray [JsString "alloc_wg::raw_vec::RawVec"])
    ];
    JsObject [
      ("text", JsString (literal [
        "impl&lt;A&gt; <a class="; "trait"; " href=";
        "https://doc.rust-lang.org/nightly/core/marker/trait.Send.html"; " title=";
        "trait core::marker::Send"; ">Send</a> for <a class="; "struct"; " href=";
        "alloc_wg/string/struct.String.html"; " title="; "struct alloc_wg::string::String";
        ">String</a>&lt;A&gt; <span class="; "where fmt-newline";
        ">where<br>&nbsp;&nbsp;&nbsp;&nbsp;&lt;A as <a class="; "trait"; " href=";
        "alloc_wg/alloc/trait.DeallocRef.html"; " title="; "trait alloc_wg::alloc::DeallocRef";
        ">DeallocRef</a>&gt;::<a class="; "type"; " href=";
        "alloc_wg/alloc/trait.DeallocRef.html#associatedtype.BuildAlloc"; " title=";
        "type alloc_wg::alloc::DeallocRef::BuildAlloc"; ">BuildAlloc</a>: <a class="; "trait";
        " href="; "https://doc.rust-lang.org/nightly/core/marker/trait.Send.html"; " title=";
        "trait core::marker::Send"; ">Send</a>,&nbsp;</span>"
      ]));
      ("synthetic", JsBool true);
      ("types", JsArray [JsString "alloc_wg::string::String"])
    ];
    JsObject [
      ("text", JsString (literal [
        "impl&lt;A&gt; <a class="; "trait"; " href=";
        "https://doc.rust-lang.org/nightly/core/marker/trait.Send.html"; " title=";
        "trait core::marker::Send"; ">Send</a> for <a class="; "struct"; " href=";
        "alloc_wg/string/struct.FromUtf8Error.html"; " title=";
        "struct alloc_wg::string::FromUtf8Error"; ">FromUtf8Error</a>&lt;A&gt; <span class=";
        "where fmt-newline"; ">where<br>&nbsp;&nbsp;&nbsp;&nbsp;&lt;A as <a class="; "trait";
        " href="; "alloc_wg/alloc/trait.DeallocRef.html"; " title=";
        "trait alloc_wg::alloc::DeallocRef"; ">DeallocRef</a>&gt;::<a class="; "type"; " href=";
        "alloc_wg/alloc/trait.DeallocRef.html#associatedtype.BuildAlloc"; " title=";
        "type alloc_wg::alloc::DeallocRef::BuildAlloc"; ">BuildAlloc</a>: <a class="; "trait";
        " href="; "https://doc.rust-lang.org/nightly/core/marker/trait.Send.html"; " title=";
        "trait core::marker::Send"; ">Send</a>,&nbsp;</span>"
      ]));
      ("synthetic", JsBool true);
      ("types", JsArray [JsString "alloc_wg::string::FromUtf8Error"])
    ];
    JsObject [
      ("text", JsString (literal [
        "impl <a class="; "trait"; " href=";
        "https://doc.rust-lang.org/nightly/core/marker/trait.Send.html"; " title=";
        "trait core::marker::Send"; ">Send</a> for <a class="; "struct"; " href=";
        "alloc_wg/string/struct.FromUtf16Error.html"; " title=";
        "struct alloc_wg::string::FromUtf16Error"; ">FromUtf16Error</a>"
      ]));
      ("synthetic", JsBool true);
      ("types", JsArray [JsString "alloc_wg::string::FromUtf16Error"])
    ];
    JsObject [
      ("text", JsString (literal [
        "impl&lt;T, A&gt; <a class="; "trait"; " href=";
        "https://doc.rust-lang.org/nightly/core/marker/trait.Send.html"; " title=";
        "trait core::marker::Send"; ">Send</a> for <a class="; "struct"; " href=";
        "alloc_wg/vec/struct.Vec.html"; " title="; "struct alloc_wg::vec::Vec";
        ">Vec</a>&lt;T, A&gt; <span class="; "where fmt-newline";
        ">where<br>&nbsp;&nbsp;&nbsp;&nbsp;T: <a class="; "trait"; " href=";
        "https://doc.rust-lang.org/nightly/core/marker/trait.Send.html"; " title=";
        "trait core::marker::Send"; ">Send</a>,<br>&nbsp;&nbsp;&nbsp;&nbsp;&lt;A as <a class=";
        "trait"; " href="; "alloc_wg/alloc/trait.DeallocRef.html"; " title=";
        "trait alloc_wg::alloc::DeallocRef"; ">DeallocRef</a>&gt;::<a class="; "type"; " href=";
        "alloc_wg/alloc/trait.DeallocRef.html#associatedtype.BuildAlloc"; " title=";
        "type alloc_wg::alloc::DeallocRef::BuildAlloc"; ">BuildAlloc</a>: <a class="; "trait";
        " href="; "https://doc.rust-lang.org/nightly/core/marker/trait.Send.html"; " title=";
        "trait core::marker::Send"; ">Send</a>,&nbsp;</span>"
      ]));
      ("synthetic", JsBool true);
      ("types", JsArray [JsString "alloc_wg::vec::Vec"])
    ];
    JsObject [
      ("text", JsString (literal [
        "impl&lt;'a, I, A&gt; <a class="; "trait"; " href=";
        "https://doc.rust-lang.org/nightly/core/marker/trait.Send.html"; " title=";
        "trait core::marker::Send"; ">Send</a> for <a class="; "struct"; " href=";
        "alloc_wg/vec/struct.Splice.html"; " title="; "struct alloc_wg::vec::Splice";
        ">Splice</a>&lt;'a, I, A&gt; <span class="; "where fmt-newline";
        ">where<br>&nbsp;&nbsp;&nbsp;&nbsp;I: <a class="; "trait"; " href=";
        "https://doc.rust-lang.org/nightly/core/marker/trait.Send.html"; " title=";
        "trait core::marker::Send"; ">Send</a>,<br>&nbsp;&nbsp;&nbsp;&nbsp;&lt;I as <a class=";
        "trait"; " href=";
        "https://doc.rust-lang.org/nightly/core/iter/traits/iterator/trait.Iterator.html";
        " title="; "trait core::iter::traits::iterator::Iterator"; ">Iterator</a>&gt;::<a class=";
        "type"; " href=";
        "https://doc.rust-lang.org/nightly/core/iter/traits/iterator/trait.Iterator.html#associatedtype.Item";
        " title="; "type core::iter::traits::iterator::Iterator::Item"; ">Item</a>: <a class=";
        "trait"; " href="; "https://doc.rust-lang.org/nightly/core/marker/trait.Send.html";
        " title="; "trait core::marker::Send"; ">Send</a>,&nbsp;</span>"
      ]));
      ("synthetic", JsBool true);
      ("types", JsArray [JsString "alloc_wg::vec::Splice"])
    ];
    JsObject [
      ("text", JsString (literal [
        "impl&lt;'a, T, F, A&gt; <a class="; "trait"; " href=";
        "https://doc.rust-lang.org/nightly/core/marker/trait.Send.html"; " title=";
        "trait core::marker::Send"; ">Send</a> for <a class="; "struct"; " href=";
        "alloc_wg/vec/struct.DrainFilter.html"; " title="; "struct alloc_wg::vec::DrainFilter";
        ">DrainFilter</a>&lt;'a, T, F, A&gt; <span class="; "where fmt-newline";
        ">where<br>&nbsp;&nbsp;&nbsp;&nbsp;F: <a class="; "trait"; " href=";
        "https://doc.rust-lang.org/nightly/core/marker/trait.Send.html"; " title=";
        "trait core::marker::Send"; ">Send</a>,<br>&nbsp;&nbsp;&nbsp;&nbsp;T: <a class="; "trait";
        " href="; "https://doc.rust-lang.org/nightly/core/marker/trait.Send.html"; " title=";
        "trait core::marker::Send"; ">Send</a>,<br>&nbsp;&nbsp;&nbsp;&nbsp;&lt;A as <a class=";
        "trait"; " href="; "alloc_wg/alloc/trait.DeallocRef.html"; " title=";
        "trait alloc_wg::alloc::DeallocRef"; ">DeallocRef</a>&gt;::<a class="; "type"; " href=";
        "alloc_wg/alloc/trait.DeallocRef.html#associatedtype.BuildAlloc"; " title=";
        "type alloc_wg::alloc::DeallocRef::BuildAlloc"; ">BuildAlloc</a>: <a class="; "trait";
        " href="; "https://doc.rust-lang.org/nightly/core/marker/trait.Send.html"; " title=";
        "trait core::marker::Send"; ">Send</a>,&nbsp;</span>"
      ]));
      ("synthetic", JsBool true);
      ("types", JsArray [JsString "alloc_wg::vec::DrainFilter"])
    ];
    JsObject [
      ("text", JsString (literal [
        "impl&lt;T:&nbsp;?<a class="; "trait"; " href=";
        "https://doc.rust-lang.org/nightly/core/marker/trait.Sized.html"; " title=";
        "trait core::marker::Sized"; ">Sized</a>, A:&nbsp;<a class="; "trait"; " href=";
        "alloc_wg/alloc/trait.DeallocRef.html"; " title="; "trait alloc_wg::alloc::DeallocRef";
        ">DeallocRef</a> + <a class="; "trait"; " href=";
        "https://doc.rust-lang.org/nightly/core/marker/trait.Send.html"; " title=";
        "trait core::marker::Send"; ">Send</a>&gt; <a class="; "trait"; " href=";
        "https://doc.rust-lang.org/nightly/core/marker/trait.Send.html"; " title=";
        "trait core::marker::Send"; ">Send</a> for <a class="; "struct"; " href=";
        "alloc_wg/boxed/struct.Box.html"; " title="; "struct alloc_wg::boxed::Box";
        ">Box</a>&lt;T, A&gt;"
      ]));
      ("synthetic", JsBool false);
      ("types", JsArray [JsString "alloc_wg::boxed::Box"])
    ];
    JsObject [
      ("text", JsString (literal [
        "impl&lt;'_, A:&nbsp;<a class="; "trait"; " href=";
        "alloc_wg/alloc/trait.DeallocRef.html"; " title="; "trait alloc_wg::alloc::DeallocRef";
        ">DeallocRef</a>&gt; <a class="; "trait"; " href=";
        "https://doc.rust-lang.org/nightly/core/marker/trait.Send.html"; " title=";
        "trait core::marker::Send"; ">Send</a> for <a class="; "struct"; " href=";
        "alloc_wg/string/struct.Drain.html"; " title="; "struct alloc_wg::string::Drain";
        ">Drain</a>&lt;'_, A&gt;"
      ]));
      ("synthetic", JsBool false);
      ("types", JsArray [JsString "alloc_wg::string::Drain"])
    ];
    JsObject [
      ("text", JsString (literal [
        "impl&lt;T:&nbsp;<a class="; "trait"; " href=";
        "https://doc.rust-lang.org/nightly/core/marker/trait.Send.html"; " title=";
        "trait core::marker::Send"; ">Send</a>&gt; <a class="; "trait"; " href=";
        "https://doc.rust-lang.org/nightly/core/marker/trait.Send.html"; " title=";
        "trait core::marker::Send"; ">Send</a> for <a class="; "struct"; " href=";
        "alloc_wg/vec/struct.IntoIter.html"; " title="; "struct alloc_wg::vec::IntoIter";
        ">IntoIter</a>&lt;T&gt;"
      ]));
      ("synthetic", JsBool false);
      ("types", JsArray [JsString "alloc_wg::vec::IntoIter"])
    ];
    JsObject [
      ("text", JsString (literal [
        "impl&lt;'_, T:&nbsp;<a class="; "trait"; " href=";
        "https://doc.rust-lang.org/nightly/core/marker/trait.Send.html"; " title=";
        "trait core::marker::Send"; ">Send</a>, A:&nbsp;<a class="; "trait"; " href=";
        "alloc_wg/alloc/trait.DeallocRef.html"; " title="; "trait alloc_wg::alloc::DeallocRef";
        ">DeallocRef</a>&gt; <a class="; "trait"; " href=";
        "https://doc.rust-lang.org/nightly/core/marker/trait.Send.html"; " title=";
        "trait core::marker::Send"; ">Send</a> for <a class="; "struct"; " href=";
        "alloc_wg/vec/struct.Drain.html"; " title="; "struct alloc_wg::vec::Drain";
        ">Drain</a>&lt;'_, T, A&gt;"
      ]));
      ("synthetic", JsBool false);
      ("types", JsArray [JsString "alloc_wg::vec::Drain"])
    ]
  ].

(** Lines 1 and 2 of the script: the table it hands off. *)
Definition implementors : value := build "alloc_wg" alloc_wg.

End Send.

Module Drop.

(** The second script, line 2: the implementors of [core::ops::drop::Drop]
    in the crate, as the array literal lists them. *)
Definition alloc_wg : value :=
  JsArray [
    JsObject [
      ("text", JsString (literal [
        "impl&lt;T:&nbsp;?<a class="; "trait"; " href=";
        "https://doc.rust-lang.org/nightly/core/marker/trait.Sized.html"; " title=";
        "trait core::marker::Sized"; ">Sized</a>, A:&nbsp;<a class="; "trait"; " href=";
        "alloc_wg/alloc/trait.DeallocRef.html"; " title="; "trait alloc_wg::alloc::DeallocRef";
        ">DeallocRef</a>&gt; <a class="; "trait"; " href=";
        "https://doc.rust-lang.org/nightly/core/ops/drop/trait.Drop.html"; " title=";
        "trait core::ops::drop::Drop"; ">Drop</a> for <a class="; "struct"; " href=";
        "alloc_wg/boxed/struct.Box.html"; " title="; "struct alloc_wg::boxed::Box";
        ">Box</a>&lt;T, A&gt;"
      ]));
      ("synthetic", JsBool false);
      ("types", JsArray [JsString "alloc_wg::boxed::Box"])
    ];
    JsObject [
      ("text", JsString (literal [
        "impl&lt;T, A:&nbsp;<a class="; "trait"; " href="; "alloc_wg/alloc/trait.DeallocRef.html";
        " title="; "trait alloc_wg::alloc::DeallocRef"; ">DeallocRef</a>&gt; <a class="; "trait";
        " href="; "https://doc.rust-lang.org/nightly/core/ops/drop/trait.Drop.html"; " title=";
        "trait core::ops::drop::Drop"; ">Drop</a> for <a class="; "struct"; " href=";
        "alloc_wg/raw_vec/struct.RawVec.html"; " title="; "struct alloc_wg::raw_vec::RawVec";
        ">RawVec</a>&lt;T, A&gt;"
      ]));
      ("synthetic", JsBool false);
      ("types", JsArray [JsString "alloc_wg::raw_vec::RawVec"])
    ];
    JsObject [
      ("text", JsString (literal [
        "impl&lt;'_, A:&nbsp;<a class="; "trait"; " href=";
        "alloc_wg/alloc/trait.DeallocRef.html"; " title="; "trait alloc_wg::alloc::DeallocRef";
        ">DeallocRef</a>&gt; <a class="; "trait"; " href=";
        "https://doc.rust-lang.org/nightly/core/ops/drop/trait.Drop.html"; " title=";
        "trait core::ops::drop::Drop"; ">Drop</a> for <a class="; "struct"; " href=";
        "alloc_wg/string/struct.Drain.html"; " title="; "struct alloc_wg::string::Drain";
        ">Drain</a>&lt;'_, A&gt;"
      ]));
      ("synthetic", JsBool false);
      ("types", JsArray [JsString "alloc_wg::string::Drain"])
    ];
    JsObject [
      ("text", JsString (literal [
        "impl&lt;T, A:&nbsp;<a class="; "trait"; " href="; "alloc_wg/alloc/trait.DeallocRef.html";
        " title="; "trait alloc_wg::alloc::DeallocRef"; ">DeallocRef</a>&gt; <a class="; "trait";
        " href="; "https://doc.rust-lang.org/nightly/core/ops/drop/trait.Drop.html"; " title=";
        "trait core::ops::drop::Drop"; ">Drop</a> for <a class="; "struct"; " href=";
        "alloc_wg/vec/struct.Vec.html"; " title="; "struct alloc_wg::vec::Vec";
        ">Vec</a>&lt;T, A&gt;"
      ]));
      ("synthetic", JsBool false);
      ("types", JsArray [JsString "alloc_wg::vec::Vec"])
    ];
    JsObject [
      ("text", JsString (literal [
        "impl&lt;T&gt; <a class="; "trait"; " href=";
        "https://doc.rust-lang.org/nightly/core/ops/drop/trait.Drop.html"; " title=";
        "trait core::ops::drop::Drop"; ">Drop</a> for <a class="; "struct"; " href=";
        "alloc_wg/vec/struct.IntoIter.html"; " title="; "struct alloc_wg::vec::IntoIter";
        ">IntoIter</a>&lt;T&gt;"
      ]));
      ("synthetic", JsBool false);
      ("types", JsArray [JsString "alloc_wg::vec::IntoIter"])
    ];
    JsObject [
      ("text", JsString (literal [
        "impl&lt;'_, T, A:&nbsp;<a class="; "trait"; " href=";
        "alloc_wg/alloc/trait.DeallocRef.html"; " title="; "trait alloc_wg::alloc::DeallocRef";
        ">DeallocRef</a>&gt; <a class="; "trait"; " href=";
        "https://doc.rust-lang.org/nightly/core/ops/drop/trait.Drop.html"; " title=";
        "trait core::ops::drop::Drop"; ">Drop</a> for <a class="; "struct"; " href=";
        "alloc_wg/vec/struct.Drain.html"; " title="; "struct alloc_wg::vec::Drain";
        ">Drain</a>&lt;'_, T, A&gt;"
      ]));
      ("synthetic", JsBool false);
      ("types", JsArray [JsString "alloc_wg::vec::Drain"])
    ];
    JsObject [
      ("text", JsString (literal [
        "impl&lt;'_, I:&nbsp;<a class="; "trait"; " href=";
        "https://doc.rust-lang.org/nightly/core/iter/traits/iterator/trait.Iterator.html";
        " title="; "trait core::iter::traits::iterator::Iterator";
        ">Iterator</a>, A&gt; <a class="; "trait"; " href=";
        "https://doc.rust-lang.org/nightly/core/ops/drop/trait.Drop.html"; " title=";
        "trait core::ops::drop::Drop"; ">Drop</a> for <a class="; "struct"; " href=";
        "alloc_wg/vec/struct.Splice.html"; " title="; "struct alloc_wg::vec::Splice";
        ">Splice</a>&lt;'_, I, A&gt; <span class="; "where fmt-newline";
        ">where<br>&nbsp;&nbsp;&nbsp;&nbsp;A: <a class="; "trait"; " href=";
        "alloc_wg/alloc/trait.ReallocRef.html"; " title="; "trait alloc_wg::alloc::ReallocRef";
        ">ReallocRef</a>,&nbsp;</span>"
      ]));
      ("synthetic", JsBool false);
      ("types", JsArray [JsString "alloc_wg::vec::Splice"])
    ];
    JsObject [
      ("text", JsString (literal [
        "impl&lt;'_, T, F, A:&nbsp;<a class="; "trait"; " href=";
        "alloc_wg/alloc/trait.DeallocRef.html"; " title="; "trait alloc_wg::alloc::DeallocRef";
        ">DeallocRef</a>&gt; <a class="; "trait"; " href=";
        "https://doc.rust-lang.org/nightly/core/ops/drop/trait.Drop.html"; " title=";
        "trait core::ops::drop::Drop"; ">Drop</a> for <a class="; "struct"; " href=";
        "alloc_wg/vec/struct.DrainFilter.html"; " title="; "struct alloc_wg::vec::DrainFilter";
        ">DrainFilter</a>&lt;'_, T, F, A&gt; <span class="; "where fmt-newline";
        ">where<br>&nbsp;&nbsp;&nbsp;&nbsp;F: <a class="; "trait"; " href=";
        "https://doc.rust-lang.org/nightly/core/ops/function/trait.FnMut.html"; " title=";
        "trait core::ops::function::FnMut"; ">FnMut</a>(<a class="; "primitive"; " href=";
        "https://doc.rust-lang.org/nightly/std/primitive.reference.html";
        ">&amp;mut </a>T) -&gt; <a class="; "primitive"; " href=";
        "https://doc.rust-lang.org/nightly/std/primitive.bool.html"; ">bool</a>,&nbsp;</span>"
      ]));
      ("synthetic", JsBool false);
      ("types", JsArray [JsString "alloc_wg::vec::DrainFilter"])
    ]
  ].

(** Lines 1 and 2 of the script: the table it hands off. *)
Definition implementors : value := build "alloc_wg" alloc_wg.

End Drop.
(** ** Observations on a load *)

(** The calls a trace holds, in order. *)
Definition calls (tr : list event) : list (nat * list value) :=
  flat_map (fun e => match e with EvCall f args => [(f, args)] | _ => [] end) tr.

(** The writes to globals a trace holds, in order. *)
Definition writes (tr : list event) : list (string * value) :=
  flat_map (fun e => match e with EvSet k v => [(k, v)] | _ => [] end) tr.

(** An event that hands a value to the page. *)
Definition is_delivery (e : event) : bool :=
  match e with
  | EvGet _ => false
  | EvSet _ _ => true
  | EvCall _ _ => true
  end.

(** The values handed to the page: the arguments of the calls and the values
    written to globals. *)
Definition deliveries (tr : list event) : list value :=
  flat_map (fun e => match e with
                     | EvGet _ => []
                     | EvSet _ v => [v]
                     | EvCall _ args => args
                     end) tr.

(** An exception raised by the script itself, as opposed to one its callee
    threw. *)
Definition own_error {A} (c : completion A) : bool :=
  match c with
  | Throw (TypeError _) => true
  | _ => false
  end.

Definition is_function (v : value) : bool :=
  match v with
  | JsFunction _ => true
  | _ => false
  end.

(** ** Paths and identifiers *)

Definition is_ident_start (c : ascii) : bool :=
  ((("a" <=? c) && (c <=? "z")) || (("A" <=? c) && (c <=? "Z")) || (c =? "_"))%char.

Definition is_ident_char (c : ascii) : bool :=
  is_ident_start c || (("0" <=? c) && (c <=? "9"))%char.

(** A Rust identifier: a letter or underscore, then letters, digits and
    underscores. *)
Definition is_identifier (s : string) : bool :=
  match s with
  | EmptyString => false
  | String c rest => is_ident_start c && forallb is_ident_char (list_ascii_of_string rest)
  end.

(** The segments of a path, split at each [::]; [acc] is the segment being
    read. *)
Fixpoint segments_from (acc : string) (s : string) : list string :=
  match s with
  | EmptyString => [acc]
  | String ":" (String ":" rest) => acc :: segments_from EmptyString rest
  | String c rest => segments_from (acc +:+ String c EmptyString) rest
  end.

Definition path_segments (s : string) : list string := segments_from EmptyString s.

(** A fully qualified path: a crate, then at least one more level, every
    level an identifier. *)
Definition is_qualified_path (s : string) : bool :=
  let segs := path_segments s in
  (2 <=? length segs)%nat && forallb is_identifier segs.

(** The crate a qualified path starts in. *)
Definition crate_of (p : string) : string := hd EmptyString (path_segments p).

(** The events that follow the first delivery of a trace. *)
Fixpoint after_first_delivery (tr : list event) : list event :=
  match tr with
  | [] => []
  | e :: rest => if is_delivery e then rest else after_first_delivery rest
  end.

(** ** The shape of a table *)

(** The entries of a record's [types] array. *)
Definition type_paths (r : value) : list value := elements (get_member r "types").

(** The specification's wording of a key: a fully qualified trait path. *)
Definition keys_are_trait_paths (table : value) : Prop :=
  Forall (fun k => is_qualified_path k = true) (keys table).

(** The specification's wording of a record: a boolean flag, and a type path
    written as a sequence of identifiers, one per level. *)
Definition record_per_spec (r : value) : Prop :=
  (exists b, get_member r "synthetic" = JsBool b) /\
  (exists ids, get_member r "types" = JsArray (map JsString ids) /\
               Forall (fun i => is_identifier i = true) ids).

(** A record as the scripts write it: the three fields in this order, a
    string, a boolean, and an array holding one string that is the whole
    qualified path of the implementing type. *)
Definition record_as_generated (r : value) : Prop :=
  keys r = ["text"; "synthetic"; "types"] /\
  (exists s, get_member r "text" = JsString s) /\
  (exists b, get_member r "synthetic" = JsBool b) /\
  (exists p, get_member r "types" = JsArray [JsString p] /\ is_qualified_path p = true).

Definition record_as_generatedb (r : value) : bool :=
  match r with
  | JsObject [("text", JsString _); ("synthetic", JsBool _);
              ("types", JsArray [JsString p])] => is_qualified_path p
  | _ => false
  end.

(** The entry [t] of a [types] array is a path that starts in crate [k]. *)
Definition path_in_crate (k : string) (t : value) : Prop :=
  exists p, t = JsString p /\ crate_of p = k.

Definition path_in_crateb (k : string) (t : value) : bool :=
  match t with
  | JsString p => String.eqb (crate_of p) k
  | _ => false
  end.

(** A table as the scripts build it: every key is one identifier, the name
    of a crate, and the records under it are types of that crate. *)
Definition keyed_by_crate (table : value) : Prop :=
  Forall (fun k =>
            is_identifier k = true /\
            Forall (fun r => Forall (path_in_crate k) (type_paths r))
                   (elements (get_member table k)))
         (keys table).

Definition keyed_by_crateb (table : value) : bool :=
  forallb (fun k =>
             is_identifier k &&
             forallb (fun r => forallb (path_in_crateb k) (type_paths r))
                     (elements (get_member table k)))
          (keys table).

(** The text of a record names [trait]. *)
Definition names_trait (trait : string) (r : value) : bool :=
  match get_member r "text" with
  | JsString s => match String.index 0 trait s with Some _ => true | None => false end
  | _ => false
  end.

(** ** Pages used as examples *)

(** A consumer that returns without touching the page. *)
Definition quiet_consumer (f : nat) (args : list value) (w : gmap string value)
  : outcome * gmap string value :=
  (Returned JsUndefined, w).

(** A consumer that throws what it was given. *)
Definition throwing_consumer (f : nat) (args : list value) (w : gmap string value)
  : outcome * gmap string value :=
  (Threw (JsArray args), w).

(** A page that has not defined the consumer yet. *)
Definition page_without_consumer : gmap string value := ∅.

(** A page whose consumer is function 0. *)
Definition page_with_consumer : gmap string value :=
  {[ register_implementors := JsFunction 0 ]}.

(** A page that has set the global to [null]. *)
Definition page_with_null : gmap string value :=
  {[ register_implementors := JsNull ]}.

(** A page that has set the global to the number 1. *)
Definition page_with_number : gmap string value :=
  {[ register_implementors := JsNumber 1 ]}.

(** A page that has set the global to [true]. *)
Definition page_with_true : gmap string value :=
  {[ register_implementors := JsBool true ]}.

(** A consumer that keeps the arguments of its last call in
    [window.received]. *)
Definition recording_consumer (f : nat) (args : list value) (w : gmap string value)
  : outcome * gmap string value :=
  (Returned JsUndefined, <["received" := JsArray args]> w).

(** A page that holds the [Drop] table in the pending slot and has no
    consumer. *)
Definition page_with_buffered_table : gmap string value :=
  {[ pending_implementors := Drop.implementors ]}.

(** ** Reading the records *)

(** The paths listed in the [types] arrays of a table, record after record. *)
Definition type_path_strings (table : value) : list string :=
  flat_map (fun r =>
              flat_map (fun t => match t with JsString p => [p] | _ => [] end)
                       (type_paths r))
           (records table).

(** The last level of a path: the name of the type. *)
Definition type_name (p : string) : string := List.last (path_segments p) EmptyString.

(** The text of a record links the type its [types] entry names: the name
    is the content of an anchor of the text. *)
Definition text_links_type (r : value) : bool :=
  match get_member r "text", get_member r "types" with
  | JsString s, JsArray [JsString p] =>
      match String.index 0 (">" +:+ type_name p +:+ "</a>") s with
      | Some _ => true
      | None => false
      end
  | _, _ => false
  end.

(** * Properties of the hand-off *)

(** The [Drop] script in a page without a consumer, and the [Send] script in
    a page with one. *)
Example load_Drop_without_consumer :
  load quiet_consumer "alloc_wg" Drop.alloc_wg page_without_consumer =
    (Normal tt,
     mkHost {[ pending_implementors := Drop.implementors ]}
            [EvGet register_implementors; EvSet pending_implementors Drop.implementors]).
Proof. reflexivity. Qed.

Example load_Send_with_consumer :
  load throwing_consumer "alloc_wg" Send.alloc_wg page_with_consumer =
    (Throw (CalleeThrew (JsArray [Send.implementors])),
     mkHost page_with_consumer
            [EvGet register_implementors; EvGet register_implementors;
             EvCall 0 [Send.implementors]]).
Proof. reflexivity. Qed.

Lemma slots_differ : pending_implementors <> register_implementors.
Proof. discriminate. Qed.

Section LoadCases.

Variable host_call : nat -> list value -> gmap string value -> outcome * gmap string value.
Variables (crate : string) (impls : value).

#[local] Abbreviation T := (build crate impls).

(** The [else] branch: the global is falsy or missing. *)
Lemma load_falsy (w : gmap string value) :
  ToBoolean (global w register_implementors) = false ->
  load host_call crate impls w =
    (Normal tt,
     mkHost (<[pending_implementors := T]> w)
            [EvGet register_implementors; EvSet pending_implementors T]).
Proof.
  intros Hc. unfold load, script, hand_off, mbind, M_bind, bind, get_global.
  cbn -[global insert build]. rewrite Hc. reflexivity.
Qed.

(** The [then] branch with a function in the global: it is called. *)
Lemma load_function (w : gmap string value) (f : nat) :
  global w register_implementors = JsFunction f ->
  load host_call crate impls w =
    (match fst (host_call f [T] w) with
     | Returned _ => Normal tt
     | Threw v => Throw (CalleeThrew v)
     end,
     mkHost (snd (host_call f [T] w))
            [EvGet register_implementors; EvGet register_implementors; EvCall f [T]]).
Proof.
  intros Hc. unfold load, script, hand_off, mbind, M_bind, bind, get_global, call.
  cbn -[global build]. rewrite Hc. cbn -[global build]. rewrite Hc.
  destruct (host_call f [T] w) as [[v | v] w']; reflexivity.
Qed.

(** The [then] branch with anything else in the global: the call expression
    raises. *)
Lemma load_not_callable (w : gmap string value) :
  ToBoolean (global w register_implementors) = true ->
  is_function (global w register_implementors) = false ->
  load host_call crate impls w =
    (Throw (TypeError "window.register_implementors is not a function"),
     mkHost w [EvGet register_implementors; EvGet register_implementors]).
Proof.
  intros Hc Hf. unfold load, script, hand_off, mbind, M_bind, bind, get_global, call.
  cbn -[global build]. rewrite Hc. cbn -[global build].
  destruct (global w register_implementors); try discriminate; reflexivity.
Qed.

(** Every load is one of the three. *)
Lemma load_cases (w : gmap string value) :
  ToBoolean (global w register_implementors) = false \/
  (exists f, global w register_implementors = JsFunction f) \/
  (ToBoolean (global w register_implementors) = true /\
   is_function (global w register_implementors) = false).
Proof.
  destruct (global w register_implementors) as [| |b|n| |s|l|p|f]; cbn;
    try destruct b; try destruct (n =? 0)%Z; try destruct s; eauto 6.
Qed.

End LoadCases.

(** ** The consumer branch *)

(** C1. When [window.register_implementors] holds a function, a load calls
    it during the load, exactly once, with the table as its only argument,
    and the script writes no global: the page after the load is the page the
    consumer left, so a pending slot that is unset when the consumer returns
    is unset after the load. *)
Theorem consumer_called_once_pending_untouched
  (host_call : nat -> list value -> gmap string value -> outcome * gmap string value)
  (crate : string) (impls : value) (w : gmap string value) (f : nat) :
  w !! register_implementors = Some (JsFunction f) ->
  let r := load host_call crate impls w in
  calls (trace (snd r)) = [(f, [build crate impls])] /\
  writes (trace (snd r)) = [] /\
  window (snd r) = snd (host_call f [build crate impls] w) /\
  (snd (host_call f [build crate impls] w) !! pending_implementors = None ->
   window (snd r) !! pending_implementors = None).
Proof.
  intros Hf r. subst r.
  rewrite (load_function host_call crate impls w f) by (unfold global; rewrite Hf; reflexivity).
  cbn [snd fst trace window calls writes flat_map app].
  split; [reflexivity | split; [reflexivity | split; [reflexivity |]]].
  intros Hnone. exact Hnone.
Qed.

Lemma consumer_called_once_pending_untouched_witness :
  page_with_consumer !! register_implementors = Some (JsFunction 0) /\
  page_with_consumer !! pending_implementors = None /\
  calls (trace (snd (load quiet_consumer "alloc_wg" Send.alloc_wg page_with_consumer)))
    = [(0, [Send.implementors])] /\
  window (snd (load quiet_consumer "alloc_wg" Send.alloc_wg page_with_consumer))
    !! pending_implementors = None.
Proof.
  assert (Hf : page_with_consumer !! register_implementors = Some (JsFunction 0))
    by reflexivity.
  pose proof (consumer_called_once_pending_untouched
                quiet_consumer "alloc_wg" Send.alloc_wg page_with_consumer 0 Hf)
    as (Hcalls & _ & _ & Hnone).
  split; [exact Hf | split; [reflexivity | split; [exact Hcalls |]]].
  apply Hnone. reflexivity.
Defined.

(** ** The two paths hand off the same table *)

(** C2. When no consumer is registered the table is afterwards in
    [window.pending_implementors], and it is the very value a registered
    consumer is called with. *)
Theorem pending_table_is_the_delivered_table
  (hc1 hc2 : nat -> list value -> gmap string value -> outcome * gmap string value)
  (crate : string) (impls : value) (w1 w2 : gmap string value) (f : nat) :
  ToBoolean (global w1 register_implementors) = false ->
  w2 !! register_implementors = Some (JsFunction f) ->
  exists table,
    window (snd (load hc1 crate impls w1)) !! pending_implementors = Some table /\
    calls (trace (snd (load hc2 crate impls w2))) = [(f, [table])].
Proof.
  intros Hfalsy Hf. exists (build crate impls). split.
  - rewrite load_falsy by exact Hfalsy. cbn [snd window].
    apply lookup_insert_eq.
  - rewrite (load_function hc2 crate impls w2 f)
      by (unfold global; rewrite Hf; reflexivity).
    reflexivity.
Qed.

Lemma pending_table_is_the_delivered_table_witness :
  ToBoolean (global page_without_consumer register_implementors) = false /\
  page_with_consumer !! register_implementors = Some (JsFunction 0) /\
  exists table,
    window (snd (load quiet_consumer "alloc_wg" Drop.alloc_wg page_without_consumer))
      !! pending_implementors = Some table /\
    calls (trace (snd (load throwing_consumer "alloc_wg" Drop.alloc_wg page_with_consumer)))
      = [(0, [table])].
Proof.
  split; [reflexivity | split; [reflexivity |]].
  apply (pending_table_is_the_delivered_table
           quiet_consumer throwing_consumer "alloc_wg" Drop.alloc_wg
           page_without_consumer page_with_consumer 0); reflexivity.
Defined.

(** ** The table reaches the page as it was built *)

(** C3, as the claim states it, fails: not every hand-off delivers the
    table.  With [true] in [window.register_implementors] the [Drop] script
    ends in the [TypeError] of line 5, the consumer is not run, the pending
    slot stays unset and the page is what it was: all eight records are
    lost. *)
Lemma table_reaches_nobody_when_global_not_callable :
  fst (load recording_consumer "alloc_wg" Drop.alloc_wg page_with_true)
    = Throw (TypeError "window.register_implementors is not a function") /\
  window (snd (load recording_consumer "alloc_wg" Drop.alloc_wg page_with_true))
    = page_with_true /\
  window (snd (load recording_consumer "alloc_wg" Drop.alloc_wg page_with_true))
    !! pending_implementors = None /\
  window (snd (load recording_consumer "alloc_wg" Drop.alloc_wg page_with_true))
    !! "received" = None /\
  deliveries (trace (snd (load recording_consumer "alloc_wg" Drop.alloc_wg page_with_true)))
    = [].
Proof.
  assert (E : load recording_consumer "alloc_wg" Drop.alloc_wg page_with_true =
              (Throw (TypeError "window.register_implementors is not a function"),
               mkHost page_with_true
                      [EvGet register_implementors; EvGet register_implementors]))
    by (apply load_not_callable; reflexivity).
  rewrite E. cbn [fst snd window trace].
  split; [reflexivity | split; [reflexivity | split; [reflexivity | split; reflexivity]]].
Qed.

(** C3, amended. When [window.register_implementors] is falsy or a
    function, the hand-off delivers the table of lines 1 and 2 unchanged:
    the table has the one key, and under it the records of the array
    literal, all of them and in the order of the literal; with a falsy
    global the load ends normally and the page after it is the page before
    it with that table in [window.pending_implementors]; with a function in
    the global the function is run once on that table as its only argument,
    and the page and the completion of the load are the ones that run
    leaves. *)
Theorem table_reaches_slot_or_consumer_unchanged
  (host_call : nat -> list value -> gmap string value -> outcome * gmap string value)
  (crate : string) (impls : value) (w : gmap string value) :
  ToBoolean (global w register_implementors) = false \/
  is_function (global w register_implementors) = true ->
  (build crate impls = JsObject [(crate, impls)] /\
   get_member (build crate impls) crate = impls /\
   records (build crate impls) = elements impls) /\
  deliveries (trace (snd (load host_call crate impls w))) = [build crate impls] /\
  ((ToBoolean (global w register_implementors) = false /\
    fst (load host_call crate impls w) = Normal tt /\
    window (snd (load host_call crate impls w))
      = <[pending_implementors := build crate impls]> w /\
    window (snd (load host_call crate impls w)) !! pending_implementors
      = Some (build crate impls))
   \/
   (exists f,
      global w register_implementors = JsFunction f /\
      calls (trace (snd (load host_call crate impls w))) = [(f, [build crate impls])] /\
      window (snd (load host_call crate impls w))
        = snd (host_call f [build crate impls] w) /\
      fst (load host_call crate impls w)
        = match fst (host_call f [build crate impls] w) with
          | Returned _ => Normal tt
          | Threw v => Throw (CalleeThrew v)
          end)).
Proof.
  intros Hw. split; [| split].
  - split; [reflexivity | split].
    + cbn. rewrite String.eqb_refl. reflexivity.
    + cbn. apply app_nil_r.
  - destruct Hw as [Hfalsy | Hfun].
    + rewrite load_falsy by exact Hfalsy. reflexivity.
    + destruct (global w register_implementors) as [| | | | | | | |f] eqn:E;
        try discriminate.
      rewrite (load_function host_call crate impls w f E). reflexivity.
  - destruct Hw as [Hfalsy | Hfun].
    + left. rewrite load_falsy by exact Hfalsy. cbn [fst snd window].
      split; [exact Hfalsy | split; [reflexivity | split; [reflexivity |]]].
      apply lookup_insert_eq.
    + right.
      destruct (global w register_implementors) as [| | | | | | | |f] eqn:E;
        try discriminate.
      exists f. rewrite (load_function host_call crate impls w f E).
      cbn [fst snd window trace].
      split; [reflexivity | split; [reflexivity | split; reflexivity]].
Qed.

Lemma table_reaches_slot_or_consumer_unchanged_witness :
  is_function (global page_with_consumer register_implementors) = true /\
  window (snd (load recording_consumer "alloc_wg" Send.alloc_wg page_with_consumer))
    !! "received" = Some (JsArray [Send.implementors]) /\
  records Send.implementors = elements Send.alloc_wg.
Proof.
  assert (Hfun : is_function (global page_with_consumer register_implementors) = true)
    by reflexivity.
  destruct (table_reaches_slot_or_consumer_unchanged
              recording_consumer "alloc_wg" Send.alloc_wg page_with_consumer
              (or_intror Hfun))
    as [(_ & _ & Hrecords) [_ [(Hfalsy & _) | (f & Hf & _ & Hpage & _)]]].
  - discriminate Hfalsy.
  - split; [exact Hfun | split; [| exact Hrecords]].
    rewrite Hpage. injection Hf as <-. reflexivity.
Defined.

(** ** At most one delivery, and nothing after it *)

(** C4. In every load, whatever the page holds and whatever its functions
    do, the script makes at most one call and hands over at most one value,
    and no event of the script follows its first delivery: no second call
    and no later write. *)
Theorem at_most_one_delivery_then_nothing
  (host_call : nat -> list value -> gmap string value -> outcome * gmap string value)
  (crate : string) (impls : value) (w : gmap string value) :
  length (calls (trace (snd (load host_call crate impls w)))) <= 1 /\
  length (deliveries (trace (snd (load host_call crate impls w)))) <= 1 /\
  after_first_delivery (trace (snd (load host_call crate impls w))) = [].
Proof.
  destruct (load_cases w) as [Hfalsy | [[f Hf] | [Htruthy Hnf]]].
  - rewrite load_falsy by exact Hfalsy. cbn. repeat split; lia.
  - rewrite (load_function host_call crate impls w f Hf). cbn. repeat split; lia.
  - rewrite load_not_callable by assumption. cbn. repeat split; lia.
Qed.

(** ** The table does not depend on the page *)

(** C7. The script reads nothing that reaches the table: any value handed
    over by one load equals any value handed over by another load of the
    same script, whatever the two pages hold and whatever their functions
    do, and it is the constant table of lines 1 and 2. *)
Theorem delivered_table_independent_of_page
  (hc1 hc2 : nat -> list value -> gmap string value -> outcome * gmap string value)
  (crate : string) (impls : value) (w1 w2 : gmap string value) (v1 v2 : value) :
  In v1 (deliveries (trace (snd (load hc1 crate impls w1)))) ->
  In v2 (deliveries (trace (snd (load hc2 crate impls w2)))) ->
  v1 = v2 /\ v1 = build crate impls.
Proof.
  assert (Hone : forall hc w v,
             In v (deliveries (trace (snd (load hc crate impls w)))) ->
             v = build crate impls).
  { intros hc w v.
    destruct (load_cases w) as [Hfalsy | [[f Hf] | [Htruthy Hnf]]].
    - rewrite load_falsy by exact Hfalsy. cbn. intros [<- | []]. reflexivity.
    - rewrite (load_function hc crate impls w f Hf). cbn. intros [<- | []]. reflexivity.
    - rewrite load_not_callable by assumption. cbn. intros []. }
  intros H1 H2. apply Hone in H1. apply Hone in H2. subst. split; reflexivity.
Qed.

Lemma delivered_table_independent_of_page_witness :
  In Send.implementors
     (deliveries (trace (snd (load quiet_consumer "alloc_wg" Send.alloc_wg
                                   page_without_consumer)))) /\
  In Send.implementors
     (deliveries (trace (snd (load throwing_consumer "alloc_wg" Send.alloc_wg
                                   page_with_consumer)))) /\
  Send.implementors = Send.implementors /\
  Send.implementors = build "alloc_wg" Send.alloc_wg.
Proof.
  assert (H1 : In Send.implementors
                  (deliveries (trace (snd (load quiet_consumer "alloc_wg" Send.alloc_wg
                                                page_without_consumer)))))
    by (left; reflexivity).
  assert (H2 : In Send.implementors
                  (deliveries (trace (snd (load throwing_consumer "alloc_wg" Send.alloc_wg
                                                page_with_consumer)))))
    by (left; reflexivity).
  split; [exact H1 | split; [exact H2 |]].
  exact (delivered_table_independent_of_page
           quiet_consumer throwing_consumer "alloc_wg" Send.alloc_wg
           page_without_consumer page_with_consumer _ _ H1 H2).
Defined.

(** ** Errors of the script's own *)

(** C8, as the claim states it, fails: with the number 1 in
    [window.register_implementors] the test of line 4 succeeds and the call
    of line 5 raises a [TypeError] of the script's own; nothing is handed
    over. *)
Lemma truthy_non_function_raises :
  load quiet_consumer "alloc_wg" Send.alloc_wg page_with_number =
    (Throw (TypeError "window.register_implementors is not a function"),
     mkHost page_with_number [EvGet register_implementors; EvGet register_implementors]) /\
  own_error (fst (load quiet_consumer "alloc_wg" Send.alloc_wg page_with_number)) = true /\
  deliveries (trace (snd (load quiet_consumer "alloc_wg" Send.alloc_wg page_with_number))) = [].
Proof.
  assert (E : load quiet_consumer "alloc_wg" Send.alloc_wg page_with_number =
              (Throw (TypeError "window.register_implementors is not a function"),
               mkHost page_with_number
                      [EvGet register_implementors; EvGet register_implementors]))
    by (apply load_not_callable; reflexivity).
  rewrite E. split; [reflexivity | split; reflexivity].
Qed.

(** C8, amended. A load raises an error of its own exactly when
    [window.register_implementors] is truthy and not a function; when the
    global is falsy or a function, building the table and handing it off end
    normally, or with what the consumer itself threw. *)
Theorem own_error_iff_truthy_non_function
  (host_call : nat -> list value -> gmap string value -> outcome * gmap string value)
  (crate : string) (impls : value) (w : gmap string value) :
  own_error (fst (load host_call crate impls w)) =
    ToBoolean (global w register_implementors)
    && negb (is_function (global w register_implementors)).
Proof.
  destruct (load_cases w) as [Hfalsy | [[f Hf] | [Htruthy Hnf]]].
  - rewrite load_falsy by exact Hfalsy. rewrite Hfalsy. reflexivity.
  - rewrite (load_function host_call crate impls w f Hf). rewrite Hf.
    cbn [fst ToBoolean is_function negb andb].
    destruct (fst (host_call f [build crate impls] w)); reflexivity.
  - rewrite load_not_callable by assumption. rewrite Htruthy, Hnf. reflexivity.
Qed.

(** ** The test is on truthiness *)

(** C9. A global that is defined but falsy is not called: the load ends
    normally with no call made, and its only change to the page is the table
    stored in [window.pending_implementors]. *)
Theorem falsy_global_stores_pending
  (host_call : nat -> list value -> gmap string value -> outcome * gmap string value)
  (crate : string) (impls : value) (w : gmap string value) (v : value) :
  w !! register_implementors = Some v ->
  ToBoolean v = false ->
  fst (load host_call crate impls w) = Normal tt /\
  calls (trace (snd (load host_call crate impls w))) = [] /\
  window (snd (load host_call crate impls w)) = <[pending_implementors := build crate impls]> w /\
  window (snd (load host_call crate impls w)) !! pending_implementors = Some (build crate impls).
Proof.
  intros Hv Hfalsy.
  rewrite load_falsy by (unfold global; rewrite Hv; exact Hfalsy).
  cbn [fst snd window trace calls flat_map app].
  repeat split. apply lookup_insert_eq.
Qed.

Lemma falsy_global_stores_pending_witness :
  page_with_null !! register_implementors = Some JsNull /\
  ToBoolean JsNull = false /\
  fst (load throwing_consumer "alloc_wg" Send.alloc_wg page_with_null) = Normal tt /\
  calls (trace (snd (load throwing_consumer "alloc_wg" Send.alloc_wg page_with_null))) = [] /\
  window (snd (load throwing_consumer "alloc_wg" Send.alloc_wg page_with_null))
    = <[pending_implementors := Send.implementors]> page_with_null /\
  window (snd (load throwing_consumer "alloc_wg" Send.alloc_wg page_with_null))
    !! pending_implementors = Some Send.implementors.
Proof.
  split; [reflexivity | split; [reflexivity |]].
  apply (falsy_global_stores_pending
           throwing_consumer "alloc_wg" Send.alloc_wg page_with_null JsNull);
    reflexivity.
Defined.

(** The other falsy values the claim lists. *)
Example zero_and_false_are_falsy :
  ToBoolean (JsNumber 0) = false /\ ToBoolean (JsBool false) = false.
Proof. split; reflexivity. Qed.

(** ** The pending slot holds one table *)

(** C10. With no consumer registered the store of line 7 is unconditional:
    whatever the slot held, it holds this script's table afterwards, and
    after two such loads the page is what the second load alone would have
    left, the first table gone. *)
Theorem pending_slot_keeps_last_table
  (host_call : nat -> list value -> gmap string value -> outcome * gmap string value)
  (crate1 crate2 : string) (impls1 impls2 : value) (w : gmap string value) :
  ToBoolean (global w register_implementors) = false ->
  let w1 := window (snd (load host_call crate1 impls1 w)) in
  let w2 := window (snd (load host_call crate2 impls2 w1)) in
  w1 !! pending_implementors = Some (build crate1 impls1) /\
  w2 !! pending_implementors = Some (build crate2 impls2) /\
  w2 = <[pending_implementors := build crate2 impls2]> w /\
  w2 = window (snd (load host_call crate2 impls2 w)).
Proof.
  intros Hfalsy w1 w2.
  assert (E1 : w1 = <[pending_implementors := build crate1 impls1]> w).
  { subst w1. rewrite load_falsy by exact Hfalsy. reflexivity. }
  assert (Hfalsy1 : ToBoolean (global w1 register_implementors) = false).
  { rewrite E1. unfold global. rewrite lookup_insert_ne by exact slots_differ.
    exact Hfalsy. }
  assert (E2 : w2 = <[pending_implementors := build crate2 impls2]> w).
  { subst w2. rewrite load_falsy by exact Hfalsy1. cbn [snd window].
    rewrite E1. apply insert_insert_eq. }
  repeat split.
  - rewrite E1. apply lookup_insert_eq.
  - rewrite E2. apply lookup_insert_eq.
  - exact E2.
  - rewrite E2. rewrite load_falsy by exact Hfalsy. reflexivity.
Qed.

Lemma pending_slot_keeps_last_table_witness :
  ToBoolean (global page_without_consumer register_implementors) = false /\
  window (snd (load quiet_consumer "alloc_wg" Drop.alloc_wg page_without_consumer))
    !! pending_implementors = Some Drop.implementors /\
  window (snd (load quiet_consumer "alloc_wg" Send.alloc_wg
                 (window (snd (load quiet_consumer "alloc_wg" Drop.alloc_wg
                                    page_without_consumer)))))
    !! pending_implementors = Some Send.implementors.
Proof.
  split; [reflexivity |].
  pose proof (pending_slot_keeps_last_table
                quiet_consumer "alloc_wg" "alloc_wg" Drop.alloc_wg Send.alloc_wg
                page_without_consumer eq_refl) as (H1 & H2 & _).
  split; [exact H1 | exact H2].
Defined.

(** The two scripts hand off different tables. *)
Lemma tables_differ : Send.implementors <> Drop.implementors.
Proof.
  intros H. apply (f_equal (fun t => length (records t))) in H.
  vm_compute in H. discriminate.
Qed.

(** * Properties of the two tables *)

Lemma assign_prop_keys_elem (ps : list (string * value)) (k : string) (v : value)
  (x : string) :
  x ∈ map fst (assign_prop ps k v) -> x = k \/ x ∈ map fst ps.
Proof.
  induction ps as [| [k' v'] ps IH]; cbn.
  - intros H. apply list_elem_of_singleton in H. left. exact H.
  - destruct (String.eqb k k') eqn:E; cbn.
    + intros H. right. exact H.
    + intros H. apply elem_of_cons in H. destruct H as [-> | H].
      * right. apply elem_of_cons. left. reflexivity.
      * destruct (IH H) as [-> | H'].
        -- left. reflexivity.
        -- right. apply elem_of_cons. right. exact H'.
Qed.

(** Assigning a property never duplicates a key. *)
Lemma assign_prop_keys_NoDup (ps : list (string * value)) (k : string) (v : value) :
  NoDup (map fst ps) -> NoDup (map fst (assign_prop ps k v)).
Proof.
  induction ps as [| [k' v'] ps IH]; cbn; intros Hnd.
  - apply NoDup_singleton.
  - apply NoDup_cons in Hnd. destruct Hnd as [Hnotin Hnd'].
    destruct (String.eqb k k') eqn:E; cbn.
    + apply NoDup_cons. split; assumption.
    + apply NoDup_cons. split; [| apply IH; exact Hnd'].
      intros H. destruct (assign_prop_keys_elem ps k v k' H) as [-> | H'].
      * rewrite String.eqb_refl in E. discriminate.
      * apply Hnotin. exact H'.
Qed.

Lemma record_as_generatedb_sound (r : value) :
  record_as_generatedb r = true -> record_as_generated r.
Proof.
  unfold record_as_generatedb, record_as_generated. intros H.
  repeat match type of H with
         | match ?x with _ => _ end = true => destruct x; try discriminate
         | (if ?x then _ else _) = true => destruct x; try discriminate
         end.
  cbn. eauto 10.
Qed.

Lemma Forall_of_forallb {A} (f : A -> bool) (P : A -> Prop) (l : list A) :
  (forall x, f x = true -> P x) -> forallb f l = true -> Forall P l.
Proof.
  intros Hsound. induction l as [| a l IH]; cbn; intros H.
  - constructor.
  - apply andb_prop in H. destruct H as [Ha Hl].
    constructor; [apply Hsound; exact Ha | apply IH; exact Hl].
Qed.

Lemma path_in_crateb_sound (k : string) (t : value) :
  path_in_crateb k t = true -> path_in_crate k t.
Proof.
  destruct t; try discriminate. cbn. intros H. apply String.eqb_eq in H.
  eexists. split; [reflexivity | exact H].
Qed.

Lemma keyed_by_crateb_sound (table : value) :
  keyed_by_crateb table = true -> keyed_by_crate table.
Proof.
  unfold keyed_by_crateb, keyed_by_crate.
  apply Forall_of_forallb. intros k Hk.
  apply andb_prop in Hk. destruct Hk as [Hid Hrecs]. split; [exact Hid |].
  revert Hrecs. apply Forall_of_forallb. intros r.
  apply Forall_of_forallb. apply path_in_crateb_sound.
Qed.

(** ** Keys *)

(** C5, as the claim states it, fails: the one key of the [Send] table is
    ["alloc_wg"], a crate name, which is no qualified trait path. *)
Lemma crate_key_is_not_a_trait_path :
  keys Send.implementors = ["alloc_wg"] /\ ~ keys_are_trait_paths Send.implementors.
Proof.
  split; [reflexivity |].
  intros H. apply Forall_inv in H. vm_compute in H. discriminate.
Qed.

(** C5, amended. Every key of a table is the name of a crate: one
    identifier, here [alloc_wg], and every type path listed under it starts
    in that crate; the trait is the same for the whole file and is named in
    the text of every record.  An assignment to a key never makes a second
    entry for it, so keys are unique per table. *)
Theorem keys_are_unique_crate_names :
  (forall crate impls,
      keys (build crate impls) = [crate] /\ NoDup (keys (build crate impls))) /\
  keys Send.implementors = ["alloc_wg"] /\
  keys Drop.implementors = ["alloc_wg"] /\
  keyed_by_crate Send.implementors /\
  keyed_by_crate Drop.implementors /\
  Forall (fun r => names_trait "trait core::marker::Send" r = true)
         (records Send.implementors) /\
  Forall (fun r => names_trait "trait core::ops::drop::Drop" r = true)
         (records Drop.implementors).
Proof.
  split; [| split; [reflexivity | split; [reflexivity |]]].
  - intros crate impls. split; [reflexivity |].
    unfold build, set_member, keys. apply assign_prop_keys_NoDup. apply NoDup_nil. exact I.
  - split; [| split; [| split]].
    + apply keyed_by_crateb_sound. vm_compute. reflexivity.
    + apply keyed_by_crateb_sound. vm_compute. reflexivity.
    + apply (Forall_of_forallb (names_trait "trait core::marker::Send")).
      * intros r Hr. exact Hr.
      * vm_compute. reflexivity.
    + apply (Forall_of_forallb (names_trait "trait core::ops::drop::Drop")).
      * intros r Hr. exact Hr.
      * vm_compute. reflexivity.
Qed.

(** ** Records *)

(** C6, as the claim states it, fails: the [types] array of the first
    [Send] record holds the single string
    ["alloc_wg::alloc::layout::LayoutErr"], the whole path, which is not an
    identifier. *)
Lemma types_entry_is_a_whole_path :
  type_paths (hd JsUndefined (records Send.implementors))
    = [JsString "alloc_wg::alloc::layout::LayoutErr"] /\
  ~ Forall record_per_spec (records Send.implementors).
Proof.
  split; [reflexivity |].
  intros H. apply Forall_inv in H. destruct H as [_ [ids [Htypes Hids]]].
  vm_compute in Htypes. injection Htypes as Htypes.
  destruct ids as [| i [| j ids]]; try discriminate.
  injection Htypes as <-.
  apply Forall_inv in Hids. vm_compute in Hids. discriminate.
Qed.

(** C6, amended. Every record of both tables has a [synthetic] field that
    is a boolean, and a [types] field that is an array holding one string:
    the whole qualified path of the implementing type, its levels joined by
    [::], not one array entry per level. *)
Theorem records_have_flag_and_whole_path :
  Forall record_as_generated (records Send.implementors) /\
  Forall record_as_generated (records Drop.implementors).
Proof.
  split; apply (Forall_of_forallb record_as_generatedb);
    solve [apply record_as_generatedb_sound | vm_compute; reflexivity].
Qed.

(** * Further properties of the hand-off *)

(** X1. The only global a script ever writes is
    [window.pending_implementors], it writes it at most once, with its
    table, and only when the test of line 4 fails; with a truthy global it
    writes nothing, whether or not the call succeeds. *)
Theorem script_writes_only_pending
  (host_call : nat -> list value -> gmap string value -> outcome * gmap string value)
  (crate : string) (impls : value) (w : gmap string value) :
  writes (trace (snd (load host_call crate impls w))) =
    if ToBoolean (global w register_implementors)
    then []
    else [(pending_implementors, build crate impls)].
Proof.
  destruct (load_cases w) as [Hfalsy | [[f Hf] | [Htruthy Hnf]]].
  - rewrite load_falsy by exact Hfalsy. rewrite Hfalsy. reflexivity.
  - rewrite (load_function host_call crate impls w f Hf). rewrite Hf. reflexivity.
  - rewrite load_not_callable by assumption. rewrite Htruthy. reflexivity.
Qed.

(** X2. A truthy global that is not a function loses the table: the load
    ends with the [TypeError] of the call expression, nothing is handed
    over, and the page is exactly what it was, so the table is not in the
    pending slot either. *)
Theorem non_callable_global_loses_table
  (host_call : nat -> list value -> gmap string value -> outcome * gmap string value)
  (crate : string) (impls : value) (w : gmap string value) :
  ToBoolean (global w register_implementors) = true ->
  is_function (global w register_implementors) = false ->
  fst (load host_call crate impls w)
    = Throw (TypeError "window.register_implementors is not a function") /\
  deliveries (trace (snd (load host_call crate impls w))) = [] /\
  window (snd (load host_call crate impls w)) = w.
Proof.
  intros Htruthy Hnf. rewrite load_not_callable by assumption.
  split; [reflexivity | split; reflexivity].
Qed.

Lemma non_callable_global_loses_table_witness :
  ToBoolean (global page_with_number register_implementors) = true /\
  is_function (global page_with_number register_implementors) = false /\
  fst (load quiet_consumer "alloc_wg" Drop.alloc_wg page_with_number)
    = Throw (TypeError "window.register_implementors is not a function") /\
  deliveries (trace (snd (load quiet_consumer "alloc_wg" Drop.alloc_wg page_with_number))) = [] /\
  window (snd (load quiet_consumer "alloc_wg" Drop.alloc_wg page_with_number))
    = page_with_number.
Proof.
  split; [reflexivity | split; [reflexivity |]].
  apply (non_callable_global_loses_table quiet_consumer "alloc_wg" Drop.alloc_wg
           page_with_number); reflexivity.
Defined.

(** X3. The script does not catch what its consumer throws: the exception
    leaves the load as it was thrown, and the script does not fall back on
    the pending slot; the page is left as the consumer left it. *)
Theorem consumer_exception_escapes
  (host_call : nat -> list value -> gmap string value -> outcome * gmap string value)
  (crate : string) (impls : value) (w : gmap string value) (f : nat) (v : value) :
  w !! register_implementors = Some (JsFunction f) ->
  fst (host_call f [build crate impls] w) = Threw v ->
  fst (load host_call crate impls w) = Throw (CalleeThrew v) /\
  writes (trace (snd (load host_call crate impls w))) = [] /\
  window (snd (load host_call crate impls w)) = snd (host_call f [build crate impls] w).
Proof.
  intros Hf Hthrew.
  rewrite (load_function host_call crate impls w f)
    by (unfold global; rewrite Hf; reflexivity).
  cbn [fst snd trace window]. rewrite Hthrew.
  split; [reflexivity | split; reflexivity].
Qed.

Lemma consumer_exception_escapes_witness :
  page_with_consumer !! register_implementors = Some (JsFunction 0) /\
  fst (throwing_consumer 0 [Send.implementors] page_with_consumer)
    = Threw (JsArray [Send.implementors]) /\
  fst (load throwing_consumer "alloc_wg" Send.alloc_wg page_with_consumer)
    = Throw (CalleeThrew (JsArray [Send.implementors])) /\
  writes (trace (snd (load throwing_consumer "alloc_wg" Send.alloc_wg page_with_consumer)))
    = [] /\
  window (snd (load throwing_consumer "alloc_wg" Send.alloc_wg page_with_consumer))
    = snd (throwing_consumer 0 [Send.implementors] page_with_consumer).
Proof.
  split; [reflexivity | split; [reflexivity |]].
  apply (consumer_exception_escapes throwing_consumer "alloc_wg" Send.alloc_wg
           page_with_consumer 0 (JsArray [Send.implementors])); reflexivity.
Defined.

(** X4. What a script does depends on the page through
    [window.register_implementors] alone: two pages with the same value in
    that global see the same reads, the same call and the same write,
    whatever else they hold and whatever their functions do.  In particular
    the script never looks at the pending slot before it stores into it. *)
Theorem trace_depends_only_on_consumer_global
  (hc1 hc2 : nat -> list value -> gmap string value -> outcome * gmap string value)
  (crate : string) (impls : value) (w1 w2 : gmap string value) :
  global w1 register_implementors = global w2 register_implementors ->
  trace (snd (load hc1 crate impls w1)) = trace (snd (load hc2 crate impls w2)).
Proof.
  intros Hsame.
  destruct (load_cases w1) as [Hfalsy | [[f Hf] | [Htruthy Hnf]]].
  - rewrite (load_falsy hc1) by exact Hfalsy.
    rewrite (load_falsy hc2) by (rewrite <- Hsame; exact Hfalsy). reflexivity.
  - rewrite (load_function hc1 crate impls w1 f Hf).
    rewrite (load_function hc2 crate impls w2 f) by (rewrite <- Hsame; exact Hf).
    reflexivity.
  - rewrite (load_not_callable hc1) by assumption.
    rewrite (load_not_callable hc2) by (rewrite <- Hsame; assumption).
    reflexivity.
Qed.

Lemma trace_depends_only_on_consumer_global_witness :
  global page_without_consumer register_implementors
    = global page_with_buffered_table register_implementors /\
  trace (snd (load quiet_consumer "alloc_wg" Send.alloc_wg page_without_consumer))
    = trace (snd (load throwing_consumer "alloc_wg" Send.alloc_wg page_with_buffered_table)).
Proof.
  split; [reflexivity |].
  apply (trace_depends_only_on_consumer_global quiet_consumer throwing_consumer
           "alloc_wg" Send.alloc_wg page_without_consumer page_with_buffered_table).
  reflexivity.
Defined.

(** X5. The scripts never drain the pending slot.  A table stored by a
    load without consumer stays in the slot when the page registers its
    consumer and a second script is loaded: the consumer is called with the
    second table only, and, unless the consumer itself changes the slot, the
    first table is still there for the page to pick up. *)
Theorem buffered_table_is_not_drained
  (host_call : nat -> list value -> gmap string value -> outcome * gmap string value)
  (crateA crateB : string) (implsA implsB : value) (w : gmap string value) (f : nat) :
  let w1 := window (snd (load host_call crateA implsA w)) in
  let w2 := <[register_implementors := JsFunction f]> w1 in
  ToBoolean (global w register_implementors) = false ->
  snd (host_call f [build crateB implsB] w2) !! pending_implementors
    = w2 !! pending_implementors ->
  calls (trace (snd (load host_call crateB implsB w2))) = [(f, [build crateB implsB])] /\
  window (snd (load host_call crateB implsB w2)) !! pending_implementors
    = Some (build crateA implsA).
Proof.
  intros w1 w2 Hfalsy Hframe.
  assert (E1 : w1 = <[pending_implementors := build crateA implsA]> w).
  { subst w1. rewrite load_falsy by exact Hfalsy. reflexivity. }
  assert (Hf : global w2 register_implementors = JsFunction f).
  { subst w2. unfold global. rewrite lookup_insert_eq. reflexivity. }
  assert (Hp : w2 !! pending_implementors = Some (build crateA implsA)).
  { subst w2. rewrite lookup_insert_ne by (intros E; symmetry in E; exact (slots_differ E)).
    rewrite E1. apply lookup_insert_eq. }
  rewrite (load_function host_call crateB implsB w2 f Hf).
  cbn [snd trace window]. split; [reflexivity |].
  rewrite Hframe. exact Hp.
Qed.

Lemma buffered_table_is_not_drained_witness :
  ToBoolean (global page_without_consumer register_implementors) = false /\
  calls (trace (snd (load quiet_consumer "alloc_wg" Send.alloc_wg
                       (<[register_implementors := JsFunction 0]>
                          (window (snd (load quiet_consumer "alloc_wg" Drop.alloc_wg
                                             page_without_consumer)))))))
    = [(0, [Send.implementors])] /\
  window (snd (load quiet_consumer "alloc_wg" Send.alloc_wg
                 (<[register_implementors := JsFunction 0]>
                    (window (snd (load quiet_consumer "alloc_wg" Drop.alloc_wg
                                       page_without_consumer))))))
    !! pending_implementors = Some Drop.implementors.
Proof.
  split; [reflexivity |].
  apply (buffered_table_is_not_drained quiet_consumer "alloc_wg" "alloc_wg"
           Drop.alloc_wg Send.alloc_wg page_without_consumer 0); reflexivity.
Defined.

(** X6. A consumer that stays registered is run by every script on that
    script's table, once per load and in the order of the loads: the page
    after the first load is what the consumer's run on the first table left,
    the page after the second load is what its run on the second table left
    of that page, and no load writes a global. *)
Theorem registered_consumer_gets_every_table
  (host_call : nat -> list value -> gmap string value -> outcome * gmap string value)
  (crateA crateB : string) (implsA implsB : value) (w : gmap string value) (f : nat) :
  let r1 := load host_call crateA implsA w in
  let r2 := load host_call crateB implsB (window (snd r1)) in
  w !! register_implementors = Some (JsFunction f) ->
  snd (host_call f [build crateA implsA] w) !! register_implementors
    = Some (JsFunction f) ->
  window (snd r1) = snd (host_call f [build crateA implsA] w) /\
  window (snd r2)
    = snd (host_call f [build crateB implsB]
                     (snd (host_call f [build crateA implsA] w))) /\
  calls (trace (snd r1) ++ trace (snd r2))
    = [(f, [build crateA implsA]); (f, [build crateB implsB])] /\
  writes (trace (snd r1) ++ trace (snd r2)) = [].
Proof.
  intros r1 r2 Hf Hstays. subst r2 r1.
  rewrite (load_function host_call crateA implsA w f)
    by (unfold global; rewrite Hf; reflexivity).
  cbn [snd window trace].
  rewrite (load_function host_call crateB implsB _ f)
    by (unfold global; rewrite Hstays; reflexivity).
  cbn [snd window trace].
  split; [reflexivity | split; [reflexivity | split; reflexivity]].
Qed.

Lemma registered_consumer_gets_every_table_witness :
  page_with_consumer !! register_implementors = Some (JsFunction 0) /\
  snd (recording_consumer 0 [Drop.implementors] page_with_consumer)
    !! register_implementors = Some (JsFunction 0) /\
  window (snd (load recording_consumer "alloc_wg" Drop.alloc_wg page_with_consumer))
    !! "received" = Some (JsArray [Drop.implementors]) /\
  window (snd (load recording_consumer "alloc_wg" Send.alloc_wg
                 (window (snd (load recording_consumer "alloc_wg" Drop.alloc_wg
                                    page_with_consumer)))))
    !! "received" = Some (JsArray [Send.implementors]) /\
  calls (trace (snd (load recording_consumer "alloc_wg" Drop.alloc_wg page_with_consumer))
         ++ trace (snd (load recording_consumer "alloc_wg" Send.alloc_wg
                          (window (snd (load recording_consumer "alloc_wg" Drop.alloc_wg
                                             page_with_consumer))))))
    = [(0, [Drop.implementors]); (0, [Send.implementors])].
Proof.
  assert (Hf : page_with_consumer !! register_implementors = Some (JsFunction 0))
    by reflexivity.
  assert (Hstays : snd (recording_consumer 0 [Drop.implementors] page_with_consumer)
                     !! register_implementors = Some (JsFunction 0))
    by reflexivity.
  destruct (registered_consumer_gets_every_table
              recording_consumer "alloc_wg" "alloc_wg" Drop.alloc_wg Send.alloc_wg
              page_with_consumer 0 Hf Hstays)
    as (Hpage1 & Hpage2 & Hcalls & _).
  split; [exact Hf | split; [exact Hstays | split; [| split; [| exact Hcalls]]]].
  - rewrite Hpage1. reflexivity.
  - rewrite Hpage2. reflexivity.
Defined.

(** * Further properties of the tables *)

(** X8. No type is listed twice in a table: the paths in the [types]
    arrays of the [Send] table are pairwise different, and so are those of
    the [Drop] table. *)
Theorem no_type_listed_twice :
  NoDup (type_path_strings Send.implementors) /\
  NoDup (type_path_strings Drop.implementors).
Proof.
  split; apply (bool_decide_unpack _); vm_compute; exact I.
Qed.

(** X9. The two fields of a record agree: in both tables the text of
    every record links, by name, the type that the record's [types] entry
    gives the path of. *)
Theorem text_links_the_listed_type :
  Forall (fun r => text_links_type r = true) (records Send.implementors) /\
  Forall (fun r => text_links_type r = true) (records Drop.implementors).
Proof.
  split; apply (Forall_of_forallb text_links_type);
    solve [intros r Hr; exact Hr | vm_compute; reflexivity].
Qed.
